(** * ManifoldMarketManager: the rule chain of [market.py]

    A shallow embedding of [Market.should_resolve] and [Market.resolve_to]
    (src/market.py) and the properties of the rule chain they implement.

    Python objects are mutable and a rule receives [self], so a rule is a
    computation over the market's state which either returns a value or
    raises.  The state outlives a raise, as it does in Python: a mutation
    made before the exception stays made. *)

From Stdlib Require Import ZArith QArith Qround Qabs List String Bool Lia Lqa.
From Stdlib Require Import Permutation.
Import ListNotations.

Set Implicit Arguments.

(** ** Python values *)

(** An exception is identified by the name of its class. *)
Inductive exn : Type := Exn (cls : string).

Definition TypeError : exn := Exn "TypeError".
Definition ValueError : exn := Exn "ValueError".

(** Modelled from the spec: the element type of [market.answers] belongs to
    pymanifold and is not among the sources.  [resolve_to] subscripts an
    answer with ['probability'], so an answer is a JSON object; the spec's
    data model gives it an index and a probability. *)
Module Answer.
Record t : Type := mk { index : Z; probability : Q }.
End Answer.

(** The values a rule or [resolve_to] can hand back.  A float is the
    rational it denotes: every finite double is one, and [round] and the
    comparisons of [max] act on that exact value. *)
Inductive pyval : Type :=
| PyNone
| PyBool (b : bool)
| PyInt (n : Z)
| PyFloat (x : Q)
| PyStr (s : string)
| PyDict (d : list (Z * Q))
| PyAnswer (a : Answer.t).

(** [v is None] *)
Definition is_none (v : pyval) : bool :=
  match v with PyNone => true | _ => false end.

(** ** The market *)

(** Modelled from the spec: [pymanifold.types.Market], of which the two
    methods read [isResolved], [probability] and [answers]. *)
Record APIMarket : Type := {
  id : string;
  isResolved : bool;
  probability : option Q;
  answers : option (list Answer.t)
}.

(** The data fields of the dataclass [Market].  The two rule lists are
    arguments of the methods below rather than fields, since a rule is a
    function of the market. *)
Record Market : Type := {
  market : APIMarket;
  notes : string
}.

(** ** Computations over the market *)

Inductive outcome (A : Type) : Type :=
| Return (a : A)
| Raise (e : exn).
Arguments Raise {A} e.

Definition M (A : Type) : Type := Market -> outcome A * Market.

Definition ret {A} (a : A) : M A := fun self => (Return a, self).

Definition raise {A} (e : exn) : M A := fun self => (Raise e, self).

Definition bind {A B} (m : M A) (k : A -> M B) : M B :=
  fun self =>
    match m self with
    | (Return a, self') => k a self'
    | (Raise e, self') => (Raise e, self')
    end.

Definition get_self : M Market := fun self => (Return self, self).

Declare Scope py_scope.
Delimit Scope py_scope with py.
Notation "x <- m ;; k" := (bind m (fun x => k))
  (at level 61, m at next level, right associativity) : py_scope.
Open Scope py_scope.

(** Modelled from the spec: the classes of [rule.py], which is not among the
    sources.  [rule.value(self)] of a [DoResolveRule] yields a boolean, that
    of a [ResolutionValueRule] a value or [None]. *)
Definition DoResolveRule : Type := M bool.
Definition ResolutionValueRule : Type := M pyval.

(** A rule that only reads the market: it returns or raises, and leaves
    the state as it found it. *)
Definition pure_rule {A} (f : Market -> outcome A) : M A :=
  fun self => (f self, self).

(** A pure rule that always returns. *)
Definition total_rule {A} (f : Market -> A) : M A :=
  pure_rule (fun self => Return (f self)).

(** ** Built-ins *)

(** [rules or ()]: [None] and the empty list both give the empty tuple. *)
Definition or_unit {A} (rules : option (list A)) : list A :=
  match rules with
  | Some rules => rules
  | None => []
  end.

Definition StopIteration : exn := Exn "StopIteration".
Definition RuntimeError : exn := Exn "RuntimeError".

(** [isinstance(e, StopIteration)].  With exceptions known by the name of
    their class, a class derived from [StopIteration] goes by that name. *)
Definition is_StopIteration (e : exn) : bool :=
  match e with Exn cls => String.eqb cls "StopIteration" end.

(** What an exception raised in the body of a generator becomes when it
    leaves the generator's frame: a [StopIteration] is replaced by a
    [RuntimeError] (PEP 479), any other exception goes out as it is. *)
Definition leave_generator (e : exn) : exn :=
  if is_StopIteration e then RuntimeError else e.

(** A computation evaluated in the body of a generator expression. *)
Definition in_generator {A} (m : M A) : M A :=
  fun self =>
    match m self with
    | (Return a, self') => (Return a, self')
    | (Raise e, self') => (Raise (leave_generator e), self')
    end.

(** [any(rule.value(self) for rule in rules)]: the generator is consumed up
    to the first true result, and [rule.value(self)] is evaluated in the
    generator's frame. *)
Fixpoint any_value (rules : list DoResolveRule) : M bool :=
  match rules with
  | [] => ret false
  | rule :: rest =>
      b <- in_generator rule ;;
      if b then ret true else any_value rest
  end.

(** [round(x)] of a float: to the nearest integer, a half to the even one. *)
Definition py_round (x : Q) : Z :=
  let f := Qfloor x in
  match (x - inject_Z f ?= 1 # 2)%Q with
  | Lt => f
  | Gt => (f + 1)%Z
  | Eq => if Z.even f then f else (f + 1)%Z
  end.

(** [bool(n)] of an integer. *)
Definition py_bool (n : Z) : bool := negb (n =? 0)%Z.

(** [a < b] on floats. *)
Definition Qltb (a b : Q) : bool := negb (Qle_bool b a).

(** The loop of [max(items, key=lambda x: x['probability'])]: an item
    replaces the running maximum when its key is strictly greater. *)
Fixpoint max_loop (maxitem : Answer.t) (items : list Answer.t) : Answer.t :=
  match items with
  | [] => maxitem
  | item :: rest =>
      if Qltb (Answer.probability maxitem) (Answer.probability item)
      then max_loop item rest
      else max_loop maxitem rest
  end.

(** [max] raises [TypeError] on [None], which is not iterable, and
    [ValueError] on an empty sequence. *)
Definition py_max (items : option (list Answer.t)) : M Answer.t :=
  match items with
  | None => raise TypeError
  | Some [] => raise ValueError
  | Some (first :: rest) => ret (max_loop first rest)
  end.

(** ** The two methods *)

(** [any(...) and not self.market.isResolved]: the rules run first, and
    [isResolved] is read only when one of them said yes. *)
Definition should_resolve (do_resolve_rules : option (list DoResolveRule))
  : M bool :=
  b <- any_value (or_unit do_resolve_rules) ;;
  if b then
    self <- get_self ;;
    ret (negb (isResolved (market self)))
  else ret false.

(** The [for] loop of [resolve_to]; its result is [chosen] when the loop is
    left. *)
Fixpoint choose (rules : list ResolutionValueRule) : M pyval :=
  match rules with
  | [] => ret PyNone
  | rule :: rest =>
      chosen <- rule ;;
      if is_none chosen then choose rest else ret chosen
  end.

Definition resolve_to (resolve_to_rules : option (list ResolutionValueRule))
  : M pyval :=
  chosen <- choose (or_unit resolve_to_rules) ;;
  if negb (is_none chosen) then ret chosen
  else
    self <- get_self ;;
    match probability (market self) with
    | Some p => ret (PyBool (py_bool (py_round p)))
    | None =>
        a <- py_max (answers (market self)) ;;
        ret (PyAnswer a)
    end.

(** ** Runs in which every rule declines *)

(** The state reached when each gate rule in turn returns [False]; [None]
    when one of them returns [True] or raises. *)
Fixpoint all_false (rules : list DoResolveRule) (self : Market)
  : option Market :=
  match rules with
  | [] => Some self
  | rule :: rest =>
      match rule self with
      | (Return false, self') => all_false rest self'
      | _ => None
      end
  end.

(** The state reached when each value rule in turn returns [None]; [None]
    when one of them returns a value or raises. *)
Fixpoint all_none (rules : list ResolutionValueRule) (self : Market)
  : option Market :=
  match rules with
  | [] => Some self
  | rule :: rest =>
      match rule self with
      | (Return PyNone, self') => all_none rest self'
      | _ => None
      end
  end.

(** The two booleans as probabilities. *)
Definition bool_Q (b : bool) : Q := if b then 1 else 0.

(** The first answer of greatest probability, as a relation: [a] sits
    between [before] and [after], nothing before it reaches its probability
    and nothing after it exceeds it. *)
Definition first_greatest (items : list Answer.t) (a : Answer.t) : Prop :=
  exists before after,
    items = before ++ a :: after
    /\ Forall (fun x => (Answer.probability x < Answer.probability a)%Q) before
    /\ Forall (fun x => (Answer.probability x <= Answer.probability a)%Q) after.

(** Field by field, the two states agree. *)
Definition same_fields (a b : Market) : Prop :=
  id (market a) = id (market b)
  /\ isResolved (market a) = isResolved (market b)
  /\ probability (market a) = probability (market b)
  /\ answers (market a) = answers (market b)
  /\ notes a = notes b.

(** [self.market.answers = a] *)
Definition with_answers (a : option (list Answer.t)) (self : Market)
  : Market :=
  {| market := {| id := id (market self);
                  isResolved := isResolved (market self);
                  probability := probability (market self);
                  answers := a |};
     notes := notes self |}.

(** The name the specification gives to the failure of a market without a
    default; [market.py] defines and raises no such class. *)
Definition NoDefaultAvailable : exn := Exn "NoDefaultAvailable".

(** ** Sample markets and rules *)

Definition binary_market (resolved : bool) (p : Q) : Market :=
  {| market := {| id := "binary"; isResolved := resolved;
                  probability := Some p; answers := None |};
     notes := "" |}.

Definition free_response_market (a : list Answer.t) : Market :=
  {| market := {| id := "free"; isResolved := false;
                  probability := None; answers := Some a |};
     notes := "" |}.

Definition numeric_market : Market :=
  {| market := {| id := "numeric"; isResolved := false;
                  probability := None; answers := None |};
     notes := "" |}.

Definition gate_yes : DoResolveRule := total_rule (fun _ => true).
Definition gate_no : DoResolveRule := total_rule (fun _ => false).

Definition rule_absent : ResolutionValueRule := total_rule (fun _ => PyNone).
Definition rule_cancel : ResolutionValueRule :=
  total_rule (fun _ => PyStr "CANCEL").
Definition rule_42 : ResolutionValueRule := total_rule (fun _ => PyInt 42).

(** A rule that raises. *)
Definition rule_broken {A} : M A :=
  pure_rule (fun _ => Raise (Exn "RuntimeError")).

(** A rule that raises [StopIteration]. *)
Definition rule_stop {A} : M A :=
  pure_rule (fun _ => Raise StopIteration).

(** A rule with a side effect: it writes to [self.notes] and declines. *)
Definition rule_scribble {A} (declined : A) : M A :=
  fun self =>
    (Return declined, {| market := market self; notes := "seen" |}).

(** ** [resolve] *)

Section Client.

(** [self.client] is pymanifold's [ManifoldClient], of which [market.py]
    shows the one call [resolve_market(market, value)]: it answers or
    raises, and changes a state of its own (the requests it has sent). *)
Variables Client Response : Type.
Variable resolve_market :
  APIMarket -> pyval -> Client -> outcome Response * Client.

(** [self.client.resolve_market(self.market, self.resolve_to())].  The
    arguments are evaluated before the call: [resolve_to] runs first, and
    only if it returns is the client called.  What is passed for
    [self.market] is the market object, which the client reads when it is
    called, so it sees the market as the rules left it: a rule's effect on
    [market] stands for what it wrote into that object.  The rules are
    computations over the market and do not use the client. *)
Definition resolve (resolve_to_rules : option (list ResolutionValueRule))
    (self : Market) (client : Client)
  : outcome Response * (Market * Client) :=
  match resolve_to resolve_to_rules self with
  | (Return value, self') =>
      let (response, client') :=
        resolve_market (market self') value client in
      (response, (self', client'))
  | (Raise e, self') => (Raise e, (self', client))
  end.

End Client.

(** A client that keeps the requests it was sent and answers with their
    number. *)
Definition logging_client (m : APIMarket) (v : pyval)
    (sent : list (APIMarket * pyval))
  : outcome nat * list (APIMarket * pyval) :=
  (Return (List.length sent), sent ++ [(m, v)]).

(** ** The monad and the loops *)

Section Loops.

Lemma bind_return A B (m : M A) (k : A -> M B) self a self' :
  m self = (Return a, self') -> bind m k self = k a self'.
Proof. unfold bind. now intros ->. Qed.

Lemma bind_raise A B (m : M A) (k : A -> M B) self e self' :
  m self = (Raise e, self') -> bind m k self = (Raise e, self').
Proof. unfold bind. now intros ->. Qed.

(** Gate rules that said no are behind us: the loop goes on with the
    rest from the state they left. *)
Lemma any_value_skip pre rest self self' :
  all_false pre self = Some self' ->
  any_value (pre ++ rest) self = any_value rest self'.
Proof.
  revert self. induction pre as [|rule pre IH]; simpl; intros self H.
  - now inversion H.
  - unfold bind, in_generator.
    destruct (rule self) as [[[|]|e] s1]; try discriminate.
    now apply IH.
Qed.

Lemma choose_skip pre rest self self' :
  all_none pre self = Some self' ->
  choose (pre ++ rest) self = choose rest self'.
Proof.
  revert self. induction pre as [|rule pre IH]; simpl; intros self H.
  - now inversion H.
  - unfold bind. destruct (rule self) as [[v|e] s1]; try discriminate.
    destruct v; try discriminate. simpl. now apply IH.
Qed.

Lemma choose_all_none rules self self' :
  all_none rules self = Some self' ->
  choose rules self = (Return PyNone, self').
Proof.
  intros H. rewrite <- (app_nil_r rules).
  now rewrite choose_skip with (self' := self').
Qed.

(** Over pure rules the loops leave the state alone. *)
Lemma any_value_pure (gs : list (Market -> outcome bool)) self :
  snd (any_value (map (@pure_rule bool) gs) self) = self.
Proof.
  induction gs as [|g gs IH]; simpl; [reflexivity|].
  unfold bind, in_generator, pure_rule at 1.
  destruct (g self) as [[|]|e]; auto.
Qed.

Lemma choose_pure (vs : list (Market -> outcome pyval)) self :
  snd (choose (map (@pure_rule pyval) vs) self) = self.
Proof.
  induction vs as [|v vs IH]; simpl; [reflexivity|].
  unfold bind, pure_rule at 1. destruct (v self) as [[]|e]; auto.
Qed.

(** Over total pure gate rules [any] is [existsb]. *)
Lemma any_value_total (fs : list (Market -> bool)) self :
  any_value (map (@total_rule bool) fs) self
  = (Return (existsb (fun f => f self) fs), self).
Proof.
  induction fs as [|f fs IH]; simpl; [reflexivity|].
  unfold bind, in_generator, total_rule at 1, pure_rule at 1.
  destruct (f self); simpl; auto.
Qed.

End Loops.

(** ** [round] *)

Section Rounding.
Open Scope Q_scope.

Lemma Qltb_lt a b : Qltb a b = true <-> a < b.
Proof.
  unfold Qltb. rewrite negb_true_iff, <- not_true_iff_false, Qle_bool_iff.
  split; [apply Qnot_le_lt | apply Qlt_not_le].
Qed.

Lemma Qltb_ge a b : Qltb a b = false <-> b <= a.
Proof.
  unfold Qltb. now rewrite negb_false_iff, Qle_bool_iff.
Qed.

(** The floor of [x] brackets it. *)
Lemma floor_bracket x :
  inject_Z (Qfloor x) <= x /\ x < inject_Z (Qfloor x) + 1.
Proof.
  split; [apply Qfloor_le|].
  generalize (Qlt_floor x). now rewrite inject_Z_plus.
Qed.

Lemma floor_near_zero x :
  -(1#2) <= x <= 1#2 -> Qfloor x = 0%Z \/ Qfloor x = (-1)%Z.
Proof.
  intros [Hlo Hhi]. destruct (floor_bracket x) as [H1 H2].
  assert (L : (Qfloor x < 1)%Z).
  { rewrite Zlt_Qlt. change (inject_Z 1) with 1. lra. }
  assert (U : (-2 < Qfloor x)%Z).
  { rewrite Zlt_Qlt. change (inject_Z (-2)) with (-2 # 1). lra. }
  lia.
Qed.

Ltac floor_is H :=
  rewrite H in *;
  change (inject_Z 0) with 0 in *;
  change (inject_Z (-1)) with (-1 # 1) in *.

(** [round] gives zero exactly on the closed interval of radius one half
    around zero: either half goes to its even neighbour, which is zero. *)
Lemma py_round_zero x : py_round x = 0%Z <-> -(1#2) <= x <= 1#2.
Proof.
  unfold py_round. destruct (floor_bracket x) as [H1 H2].
  destruct (x - inject_Z (Qfloor x) ?= 1 # 2) eqn:E.
  - apply Qeq_alt in E. split.
    + intros H. destruct (Z.even (Qfloor x)) eqn:Ev.
      * floor_is H. lra.
      * assert (Hf : Qfloor x = (-1)%Z) by lia. floor_is Hf. lra.
    + intros B.
      destruct (floor_near_zero B) as [Hf|Hf]; floor_is Hf; reflexivity.
  - apply Qlt_alt in E. split.
    + intros H. floor_is H. lra.
    + intros B. destruct (floor_near_zero B) as [Hf|Hf]; floor_is Hf;
        [reflexivity|lra].
  - apply Qgt_alt in E. split.
    + intros H. assert (Hf : Qfloor x = (-1)%Z) by lia. floor_is Hf. lra.
    + intros B. destruct (floor_near_zero B) as [Hf|Hf]; floor_is Hf;
        [lra|reflexivity].
Qed.

(** [bool(round(p))] of a probability says whether it exceeds one half. *)
Lemma py_bool_round p :
  0 <= p -> (py_bool (py_round p) = true <-> 1#2 < p).
Proof.
  intros Hp. unfold py_bool.
  rewrite negb_true_iff, Z.eqb_neq, py_round_zero. split.
  - intros H. apply Qnot_le_lt. intros Hle. apply H. split; lra.
  - intros H [_ Hle]. lra.
Qed.

End Rounding.

(** ** [max] *)

Section Maximum.
Open Scope Q_scope.
Import Answer.

(** The invariant of the scan: [m] is the running maximum, everything
    before it is smaller, everything seen since is no greater. *)
Lemma max_loop_scan rest : forall before m mid,
  Forall (fun x => probability x < probability m) before ->
  Forall (fun x => probability x <= probability m) mid ->
  first_greatest (before ++ m :: mid ++ rest) (max_loop m rest).
Proof.
  induction rest as [|item rest IH]; intros before m mid Hb Hm; simpl.
  - exists before, mid. now rewrite app_nil_r.
  - destruct (Qltb (probability m) (probability item)) eqn:E.
    + apply Qltb_lt in E.
      replace (before ++ m :: mid ++ item :: rest)
        with ((before ++ m :: mid) ++ item :: [] ++ rest)
        by (now rewrite <- app_assoc).
      apply IH; [|constructor].
      apply Forall_app; split; [|constructor].
      * eapply Forall_impl; [|exact Hb]. simpl. intros x Hx. lra.
      * exact E.
      * eapply Forall_impl; [|exact Hm]. simpl. intros x Hx. lra.
    + apply Qltb_ge in E.
      replace (before ++ m :: mid ++ item :: rest)
        with (before ++ m :: (mid ++ [item]) ++ rest)
        by (now rewrite <- app_assoc).
      apply IH; [exact Hb|].
      apply Forall_app; split; [exact Hm|]. now constructor.
Qed.

(** [max] picks the first answer of greatest probability. *)
Lemma max_loop_first_greatest first rest :
  first_greatest (first :: rest) (max_loop first rest).
Proof. apply (@max_loop_scan rest [] first []); constructor. Qed.

End Maximum.

(** ** [should_resolve] *)

Lemma should_resolve_total (fs : list (Market -> bool)) self :
  should_resolve (Some (map (@total_rule bool) fs)) self
  = (Return (existsb (fun f => f self) fs && negb (isResolved (market self))),
     self).
Proof.
  unfold should_resolve, bind. simpl or_unit. rewrite any_value_total.
  now destruct (existsb _ fs).
Qed.

(** C1.  Over gate rules that are pure boolean functions of the market,
    [should_resolve] returns the disjunction of their results, conjoined
    with the market not being resolved.  Hence it returns [False] on a
    resolved market whatever the rules say, and [False] when there is no
    gate rule (an empty list, or [None] in its place), resolved or not. *)
Theorem should_resolve_any_and_unresolved
    (fs : list (Market -> bool)) (self : Market) :
  should_resolve (Some (map (@total_rule bool) fs)) self
  = (Return (existsb (fun f => f self) fs && negb (isResolved (market self))),
     self)
  /\ (isResolved (market self) = true ->
      should_resolve (Some (map (@total_rule bool) fs)) self
      = (Return false, self))
  /\ should_resolve (Some []) self = (Return false, self)
  /\ should_resolve None self = (Return false, self).
Proof.
  repeat split; try reflexivity.
  - apply should_resolve_total.
  - intros R. rewrite should_resolve_total, R. now rewrite andb_false_r.
Qed.

Lemma should_resolve_any_and_unresolved_witness :
  should_resolve (Some [gate_yes; gate_yes]) (binary_market true 0.8)
  = (Return false, binary_market true 0.8).
Proof.
  exact (proj1 (proj2 (should_resolve_any_and_unresolved
                         [fun _ => true; fun _ => true]
                         (binary_market true 0.8)))
               eq_refl).
Defined.

(** An exception raised by a gate rule, as it leaves [any]. *)
Lemma in_generator_raise A (m : M A) self e self' :
  m self = (Raise e, self') ->
  in_generator m self = (Raise (leave_generator e), self').
Proof. unfold in_generator. now intros ->. Qed.

Lemma leave_generator_other e :
  is_StopIteration e = false -> leave_generator e = e.
Proof. unfold leave_generator. now intros ->. Qed.

(** A gate rule that raises when its turn comes ends [should_resolve] with
    its exception as it leaves [any]. *)
Lemma should_resolve_raised pre rule post self self1 self2 e :
  all_false pre self = Some self1 ->
  rule self1 = (Raise e, self2) ->
  should_resolve (Some (pre ++ rule :: post)) self
  = (Raise (leave_generator e), self2).
Proof.
  intros Hpre H. unfold should_resolve. simpl or_unit. apply bind_raise.
  rewrite any_value_skip with (self' := self1) by assumption.
  simpl. apply bind_raise. now apply in_generator_raise.
Qed.

(** C9.  The gate rules run before [isResolved] is looked at.  On a market
    that is already resolved, a first gate rule that raises has its error
    propagated, where [False] might have been expected: the error comes out
    of [any], as it is unless it is a [StopIteration], which the generator
    expression turns into a [RuntimeError].  And the rules run up to the
    first that returns [True], leaving their effects in the state, before
    the answer is taken from [isResolved] as it then is. *)
Theorem should_resolve_runs_gates_first :
  (forall rule rest self self' e,
      isResolved (market self) = true ->
      rule self = (Raise e, self') ->
      should_resolve (Some (rule :: rest)) self
      = (Raise (leave_generator e), self')
      /\ (is_StopIteration e = false ->
          should_resolve (Some (rule :: rest)) self = (Raise e, self')))
  /\ (forall pre rule post self self1 self2,
      isResolved (market self) = true ->
      all_false pre self = Some self1 ->
      rule self1 = (Return true, self2) ->
      should_resolve (Some (pre ++ rule :: post)) self
      = (Return (negb (isResolved (market self2))), self2)).
Proof.
  split.
  - intros rule rest self self' e _ H.
    assert (R : should_resolve (Some (rule :: rest)) self
                = (Raise (leave_generator e), self'))
      by exact (should_resolve_raised [] rule rest self eq_refl H).
    split; [exact R|].
    intros N. now rewrite R, leave_generator_other.
  - intros pre rule post self self1 self2 _ Hpre H.
    unfold should_resolve. simpl or_unit. unfold bind at 1.
    rewrite any_value_skip with (self' := self1) by assumption.
    simpl. unfold bind at 1, in_generator. now rewrite H.
Qed.

Lemma should_resolve_runs_gates_first_witness :
  isResolved (market (binary_market true 0.8)) = true
  /\ should_resolve (Some [rule_broken; gate_yes]) (binary_market true 0.8)
     = (Raise (Exn "RuntimeError"), binary_market true 0.8)
  /\ should_resolve (Some [rule_scribble false; gate_yes; rule_broken])
       (binary_market true 0.8)
     = (Return false,
        {| market := market (binary_market true 0.8); notes := "seen" |}).
Proof.
  split; [reflexivity|]. split.
  - exact (proj2 (proj1 should_resolve_runs_gates_first
                    rule_broken [gate_yes] (binary_market true 0.8) _ _
                    eq_refl eq_refl) eq_refl).
  - exact (proj2 should_resolve_runs_gates_first
             [rule_scribble false] gate_yes [rule_broken]
             (binary_market true 0.8) _ _ eq_refl eq_refl eq_refl).
Defined.

(** ** [resolve_to]: the chain *)

Section Chain.
Variable rules : list ResolutionValueRule.
Variables self self' : Market.

(** The loop left with a value: that value is returned. *)
Lemma resolve_to_chosen v :
  choose rules self = (Return v, self') -> is_none v = false ->
  resolve_to (Some rules) self = (Return v, self').
Proof.
  intros H N. unfold resolve_to, bind. simpl or_unit. rewrite H, N.
  reflexivity.
Qed.

(** The loop left by an exception: the exception goes on. *)
Lemma resolve_to_raised e :
  choose rules self = (Raise e, self') ->
  resolve_to (Some rules) self = (Raise e, self').
Proof.
  intros H. unfold resolve_to, bind. simpl or_unit. now rewrite H.
Qed.

(** The loop ran out: the default is computed in the state it left. *)
Lemma resolve_to_fallback :
  all_none rules self = Some self' ->
  resolve_to (Some rules) self
  = match probability (market self') with
    | Some p => (Return (PyBool (py_bool (py_round p))), self')
    | None =>
        match py_max (answers (market self')) self' with
        | (Return a, s) => (Return (PyAnswer a), s)
        | (Raise e, s) => (Raise e, s)
        end
    end.
Proof.
  intros H. unfold resolve_to. simpl or_unit. unfold bind at 1.
  rewrite (choose_all_none _ _ H). simpl.
  unfold bind, get_self. now destruct (probability (market self')).
Qed.
End Chain.

(** C2.  [resolve_to] returns what the first value rule that does not
    return [None] returns.  The rules before it have run, each returning
    [None]; the rules after it are not evaluated: whatever they are, the
    result and the state are those the decisive rule left. *)
Theorem resolve_to_first_decisive
    (pre : list ResolutionValueRule) (rule : ResolutionValueRule)
    (post : list ResolutionValueRule) (self self1 self2 : Market)
    (v : pyval) :
  all_none pre self = Some self1 ->
  rule self1 = (Return v, self2) ->
  is_none v = false ->
  resolve_to (Some (pre ++ rule :: post)) self = (Return v, self2).
Proof.
  intros Hpre H N. apply resolve_to_chosen; [|exact N].
  rewrite choose_skip with (self' := self1) by assumption.
  simpl. unfold bind. now rewrite H, N.
Qed.

Lemma resolve_to_first_decisive_witness :
  resolve_to (Some [rule_absent; rule_cancel; rule_42]) numeric_market
  = (Return (PyStr "CANCEL"), numeric_market).
Proof.
  exact (@resolve_to_first_decisive
           [rule_absent] rule_cancel [rule_42]
           numeric_market numeric_market numeric_market (PyStr "CANCEL")
           eq_refl eq_refl eq_refl).
Defined.

(** Nor does a later rule that would raise get its turn. *)
Example resolve_to_skips_broken_rule :
  resolve_to (Some [rule_scribble PyNone; rule_cancel; rule_broken])
    numeric_market
  = (Return (PyStr "CANCEL"),
     {| market := market numeric_market; notes := "seen" |}).
Proof. reflexivity. Qed.

(** C5, as the code has it.  A rule that raises when its turn comes ends
    the call with an exception, in the state the rule left: the remaining
    rules are not tried and no default takes the place of the error.
    [resolve_to] hands every exception on as it is.  [should_resolve] hands
    it on as it leaves [any]: as it is, unless it is a [StopIteration],
    which the generator expression turns into a [RuntimeError]. *)
Theorem rule_error_propagates :
  (forall pre rule post self self1 self2 e,
      all_false pre self = Some self1 ->
      rule self1 = (Raise e, self2) ->
      should_resolve (Some (pre ++ rule :: post)) self
      = (Raise (leave_generator e), self2)
      /\ (is_StopIteration e = false ->
          should_resolve (Some (pre ++ rule :: post)) self
          = (Raise e, self2)))
  /\ (forall pre rule post self self1 self2 e,
      all_none pre self = Some self1 ->
      rule self1 = (Raise e, self2) ->
      resolve_to (Some (pre ++ rule :: post)) self = (Raise e, self2)).
Proof.
  split; intros pre rule post self self1 self2 e Hpre H.
  - pose proof (should_resolve_raised pre rule post self Hpre H) as R.
    split; [exact R|].
    intros N. now rewrite R, leave_generator_other.
  - apply resolve_to_raised.
    rewrite choose_skip with (self' := self1) by assumption.
    simpl. now apply bind_raise.
Qed.

Lemma rule_error_propagates_witness :
  should_resolve (Some [gate_no; rule_broken; gate_yes])
    (binary_market false 0.8)
  = (Raise (Exn "RuntimeError"), binary_market false 0.8)
  /\ resolve_to (Some [rule_absent; rule_stop; rule_42])
       (binary_market false 0.8)
     = (Raise StopIteration, binary_market false 0.8).
Proof.
  split.
  - exact (proj2 (proj1 rule_error_propagates
                    [gate_no] rule_broken [gate_yes]
                    (binary_market false 0.8) _ _ _ eq_refl eq_refl)
             eq_refl).
  - exact (proj2 rule_error_propagates
             [rule_absent] rule_stop [rule_42]
             (binary_market false 0.8) _ _ _ eq_refl eq_refl).
Defined.

(** C5, as the claim has it, fails.  The one gate rule raises
    [StopIteration]; what [should_resolve] raises is a [RuntimeError], not
    the rule's exception unmodified. *)
Lemma gate_StopIteration_not_unmodified :
  rule_stop (binary_market false 0.8)
  = (Raise StopIteration : outcome bool, binary_market false 0.8)
  /\ should_resolve (Some [rule_stop]) (binary_market false 0.8)
     = (Raise RuntimeError, binary_market false 0.8)
  /\ should_resolve (Some [rule_stop]) (binary_market false 0.8)
     <> (Raise StopIteration, binary_market false 0.8).
Proof. repeat split; (reflexivity || discriminate). Qed.

(** ** [resolve_to]: the defaults *)

(** Of the two booleans, [b] is the one nearer to [p]. *)
Lemma nearest_boolean (p : Q) (b : bool) :
  (0 <= p <= 1)%Q -> (b = true <-> (1#2 < p)%Q) ->
  (Qabs (p - bool_Q b) <= Qabs (p - bool_Q (negb b)))%Q.
Proof.
  intros [P0 P1] Hb. destruct b; simpl.
  - assert (H : (1#2 < p)%Q) by now apply Hb.
    rewrite (Qabs_neg (p - 1)), (Qabs_pos (p - 0)); lra.
  - assert (H : (p <= 1#2)%Q).
    { apply Qnot_lt_le. intros L. apply Hb in L. discriminate. }
    rewrite (Qabs_pos (p - 0)), (Qabs_neg (p - 1)); lra.
Qed.

(** C4.  When every value rule returns [None] and the market has a
    probability [p] between 0 and 1, [resolve_to] returns a boolean: [True]
    when [p] is above one half and [False] otherwise, which is the nearer
    of the two to [p] (one half itself goes to [False], the even side).
    A probability of 0.8 gives [True] and one of 0.2 gives [False]. *)
Theorem resolve_to_default_binary :
  (forall rules self self' p,
      all_none rules self = Some self' ->
      probability (market self') = Some p ->
      (0 <= p <= 1)%Q ->
      exists b,
        resolve_to (Some rules) self = (Return (PyBool b), self')
        /\ (b = true <-> (1#2 < p)%Q)
        /\ (Qabs (p - bool_Q b) <= Qabs (p - bool_Q (negb b)))%Q)
  /\ resolve_to (Some []) (binary_market false 0.8)
     = (Return (PyBool true), binary_market false 0.8)
  /\ resolve_to (Some []) (binary_market false 0.2)
     = (Return (PyBool false), binary_market false 0.2).
Proof.
  split; [|split; reflexivity].
  intros rules self self' p Hnone Hp B.
  exists (py_bool (py_round p)).
  assert (Hb : py_bool (py_round p) = true <-> (1#2 < p)%Q)
    by (apply py_bool_round; tauto).
  split; [|split].
  - rewrite (resolve_to_fallback _ _ Hnone). now rewrite Hp.
  - exact Hb.
  - now apply nearest_boolean.
Qed.

Lemma resolve_to_default_binary_witness :
  exists b,
    resolve_to (Some [rule_absent; rule_scribble PyNone])
      (binary_market false 0.8)
    = (Return (PyBool b),
       {| market := market (binary_market false 0.8); notes := "seen" |})
    /\ (b = true <-> (1#2 < 0.8)%Q)
    /\ (Qabs (0.8 - bool_Q b) <= Qabs (0.8 - bool_Q (negb b)))%Q.
Proof.
  apply (proj1 resolve_to_default_binary
           [rule_absent; rule_scribble PyNone] (binary_market false 0.8)).
  - reflexivity.
  - reflexivity.
  - split; discriminate.
Defined.

(** C10.  When every value rule returns [None] and the market has a
    probability, [resolve_to] returns [bool(round(p))]: a boolean, not a
    float.  The answers are not consulted: the same boolean comes out
    whatever [answers] holds, [None] included. *)
Theorem resolve_to_binary_boolean
    (rules : list ResolutionValueRule) (self self' : Market) (p : Q) :
  all_none rules self = Some self' ->
  probability (market self') = Some p ->
  resolve_to (Some rules) self
  = (Return (PyBool (py_bool (py_round p))), self')
  /\ (forall x, PyBool (py_bool (py_round p)) <> PyFloat x)
  /\ (forall a,
        fst (resolve_to (Some []) (with_answers a self'))
        = Return (PyBool (py_bool (py_round p)))).
Proof.
  intros Hnone Hp. split; [|split].
  - rewrite (resolve_to_fallback _ _ Hnone). now rewrite Hp.
  - discriminate.
  - intros a. unfold resolve_to, bind. simpl. now rewrite Hp.
Qed.

Lemma resolve_to_binary_boolean_witness :
  resolve_to (Some [rule_absent]) (binary_market false 0.2)
  = (Return (PyBool false), binary_market false 0.2)
  /\ (forall x, PyBool false <> PyFloat x)
  /\ (forall a,
        fst (resolve_to (Some []) (with_answers a (binary_market false 0.2)))
        = Return (PyBool false)).
Proof.
  exact (@resolve_to_binary_boolean
           [rule_absent] (binary_market false 0.2) (binary_market false 0.2)
           0.2 eq_refl eq_refl).
Defined.

(** What the code does on a free-response market when every value rule
    returns [None]: it returns the answer itself, the first one of greatest
    probability. *)
Lemma resolve_to_default_answer rules self self' first rest :
  all_none rules self = Some self' ->
  probability (market self') = None ->
  answers (market self') = Some (first :: rest) ->
  exists a,
    resolve_to (Some rules) self = (Return (PyAnswer a), self')
    /\ first_greatest (first :: rest) a.
Proof.
  intros Hnone Hp Ha. exists (max_loop first rest). split.
  - rewrite (resolve_to_fallback _ _ Hnone). now rewrite Hp, Ha.
  - apply max_loop_first_greatest.
Qed.

(** C3.  On the free-response market with answers [{0, 0.1}], [{1, 0.7}],
    [{2, 0.2}] and no value rule, [resolve_to] returns the answer
    [{1, 0.7}] as a whole, not the index 1; on the tie [{0, 0.5}],
    [{1, 0.5}] it returns the answer [{0, 0.5}], not the index 0. *)
Theorem resolve_to_returns_answer_not_index :
  fst (resolve_to (Some [])
         (free_response_market
            [Answer.mk 0 0.1; Answer.mk 1 0.7; Answer.mk 2 0.2]))
  = Return (PyAnswer (Answer.mk 1 0.7))
  /\ Return (PyAnswer (Answer.mk 1 0.7)) <> Return (PyInt 1)
  /\ fst (resolve_to (Some [])
            (free_response_market [Answer.mk 0 0.5; Answer.mk 1 0.5]))
     = Return (PyAnswer (Answer.mk 0 0.5))
  /\ Return (PyAnswer (Answer.mk 0 0.5)) <> Return (PyInt 0).
Proof. repeat split; (reflexivity || discriminate). Qed.

(** C6, as the code has it.  When every value rule returns [None] and the
    market has neither a probability nor answers, [resolve_to] returns no
    value: the call of [max] raises, [TypeError] when [answers] is [None]
    and [ValueError] when it is an empty list. *)
Theorem resolve_to_no_default
    (rules : list ResolutionValueRule) (self self' : Market) :
  all_none rules self = Some self' ->
  probability (market self') = None ->
  (answers (market self') = None ->
   resolve_to (Some rules) self = (Raise TypeError, self'))
  /\ (answers (market self') = Some [] ->
      resolve_to (Some rules) self = (Raise ValueError, self')).
Proof.
  intros Hnone Hp.
  split; intros Ha; rewrite (resolve_to_fallback _ _ Hnone), Hp, Ha;
    reflexivity.
Qed.

Lemma resolve_to_no_default_witness :
  resolve_to (Some [rule_absent]) numeric_market
  = (Raise TypeError, numeric_market)
  /\ resolve_to (Some [rule_absent]) (with_answers (Some []) numeric_market)
     = (Raise ValueError, with_answers (Some []) numeric_market).
Proof.
  split.
  - exact (proj1 (@resolve_to_no_default
                    [rule_absent] numeric_market numeric_market
                    eq_refl eq_refl) eq_refl).
  - exact (proj2 (@resolve_to_no_default
                    [rule_absent] (with_answers (Some []) numeric_market)
                    (with_answers (Some []) numeric_market)
                    eq_refl eq_refl) eq_refl).
Defined.

(** C6, as the claim has it, fails.  The market has neither probability
    nor answers and its one value rule returns [None], so a value rule is
    there; the call raises [TypeError], not [NoDefaultAvailable].  Without
    any rule the call is not turned away either: it fails the same way. *)
Lemma resolve_to_no_default_not_named :
  all_none [rule_absent] numeric_market = Some numeric_market
  /\ probability (market numeric_market) = None
  /\ answers (market numeric_market) = None
  /\ fst (resolve_to (Some [rule_absent]) numeric_market) = Raise TypeError
  /\ fst (resolve_to (Some [rule_absent]) numeric_market)
     <> Raise NoDefaultAvailable
  /\ fst (resolve_to (Some []) numeric_market) = Raise TypeError.
Proof. repeat split; (reflexivity || discriminate). Qed.

(** ** Pure rules *)

Lemma should_resolve_pure (gs : list (Market -> outcome bool)) self :
  snd (should_resolve (Some (map (@pure_rule bool) gs)) self) = self.
Proof.
  unfold should_resolve, bind. simpl or_unit.
  generalize (any_value_pure gs self).
  destruct (any_value _ self) as [[[|]|e] s]; simpl; auto.
Qed.

Lemma resolve_to_pure (vs : list (Market -> outcome pyval)) self :
  snd (resolve_to (Some (map (@pure_rule pyval) vs)) self) = self.
Proof.
  unfold resolve_to, bind. simpl or_unit.
  generalize (choose_pure vs self).
  destruct (choose _ self) as [[v|e] s]; simpl; auto.
  intros ->. destruct (is_none v); simpl; auto.
  destruct (probability (market self)); simpl; auto.
  now destruct (answers (market self)) as [[|first rest]|].
Qed.

(** C7.  With pure value rules, a second call of [resolve_to], made in
    the state the first call left, gives what the first gave: the same
    value or the same exception. *)
Theorem resolve_to_twice (vs : list (Market -> outcome pyval)) self :
  resolve_to (Some (map (@pure_rule pyval) vs))
    (snd (resolve_to (Some (map (@pure_rule pyval) vs)) self))
  = resolve_to (Some (map (@pure_rule pyval) vs)) self.
Proof. now rewrite resolve_to_pure. Qed.

(** C8.  With pure rules, [should_resolve] and [resolve_to] leave the
    market as they found it: its identifier, [isResolved], [probability],
    [answers] and [notes] are after the call what they were before, whether
    the call returns or raises. *)
Theorem methods_leave_market_unchanged
    (gs : list (Market -> outcome bool))
    (vs : list (Market -> outcome pyval)) (self : Market) :
  same_fields (snd (should_resolve (Some (map (@pure_rule bool) gs)) self))
    self
  /\ same_fields (snd (resolve_to (Some (map (@pure_rule pyval) vs)) self))
       self.
Proof.
  rewrite should_resolve_pure, resolve_to_pure.
  unfold same_fields. tauto.
Qed.

(** ** Further properties of [should_resolve] *)

Lemma any_value_all_false rules self self' :
  all_false rules self = Some self' ->
  any_value rules self = (Return false, self').
Proof.
  intros H. rewrite <- (app_nil_r rules).
  now rewrite any_value_skip with (self' := self').
Qed.

(** X1.  Over gate rules with side effects: when every rule returns
    [False] the answer is [False] in the state they left, and [isResolved]
    plays no part; when a rule returns [True] after the ones before it
    returned [False], the rules after it are not run and the answer is the
    negation of [isResolved] as that rule left it. *)
Theorem should_resolve_short_circuit :
  (forall rules self self',
      all_false rules self = Some self' ->
      should_resolve (Some rules) self = (Return false, self'))
  /\ (forall pre rule post self self1 self2,
      all_false pre self = Some self1 ->
      rule self1 = (Return true, self2) ->
      should_resolve (Some (pre ++ rule :: post)) self
      = (Return (negb (isResolved (market self2))), self2)).
Proof.
  split.
  - intros rules self self' H. unfold should_resolve, bind. simpl or_unit.
    now rewrite (any_value_all_false _ _ H).
  - intros pre rule post self self1 self2 Hpre H.
    unfold should_resolve. simpl or_unit. unfold bind at 1.
    rewrite any_value_skip with (self' := self1) by assumption.
    simpl. unfold bind at 1, in_generator. now rewrite H.
Qed.

Lemma should_resolve_short_circuit_witness :
  should_resolve (Some [gate_no; rule_scribble false])
    (binary_market true 0.8)
  = (Return false,
     {| market := market (binary_market true 0.8); notes := "seen" |})
  /\ should_resolve (Some [rule_scribble false; gate_yes; rule_broken])
       (binary_market false 0.8)
     = (Return true,
        {| market := market (binary_market false 0.8); notes := "seen" |}).
Proof.
  split.
  - exact (proj1 should_resolve_short_circuit
             [gate_no; rule_scribble false] (binary_market true 0.8) _
             eq_refl).
  - exact (proj2 should_resolve_short_circuit
             [rule_scribble false] gate_yes [rule_broken]
             (binary_market false 0.8) _ _ eq_refl eq_refl).
Defined.

Lemma existsb_permutation A (f : A -> bool) (l l' : list A) :
  Permutation l l' -> existsb f l = existsb f l'.
Proof.
  induction 1; simpl; try congruence.
  now destruct (f x), (f y).
Qed.

(** X2.  The order of pure, total gate rules does not matter: any
    rearrangement of them gives the same answer. *)
Theorem should_resolve_any_order
    (fs gs : list (Market -> bool)) (self : Market) :
  Permutation fs gs ->
  should_resolve (Some (map (@total_rule bool) fs)) self
  = should_resolve (Some (map (@total_rule bool) gs)) self.
Proof.
  intros P. rewrite !should_resolve_total.
  now rewrite (existsb_permutation (fun f => f self) P).
Qed.

Lemma should_resolve_any_order_witness :
  should_resolve (Some [gate_no; gate_yes]) (binary_market false 0.8)
  = should_resolve (Some [gate_yes; gate_no]) (binary_market false 0.8).
Proof.
  exact (@should_resolve_any_order
           [fun _ => false; fun _ => true] [fun _ => true; fun _ => false]
           (binary_market false 0.8) (perm_swap _ _ [])).
Defined.

(** X3.  More pure, total gate rules never take eligibility away: if
    [should_resolve] returns [True], it still does with further such rules
    put after or before the ones there. *)
Theorem should_resolve_more_rules
    (fs gs : list (Market -> bool)) (self : Market) :
  fst (should_resolve (Some (map (@total_rule bool) fs)) self)
  = Return true ->
  fst (should_resolve (Some (map (@total_rule bool) (fs ++ gs))) self)
  = Return true
  /\ fst (should_resolve (Some (map (@total_rule bool) (gs ++ fs))) self)
     = Return true.
Proof.
  rewrite !should_resolve_total, !existsb_app. simpl.
  intros H. injection H as H. apply andb_prop in H as [-> ->].
  now rewrite orb_true_r.
Qed.

Lemma should_resolve_more_rules_witness :
  fst (should_resolve (Some [gate_yes; gate_no]) (binary_market false 0.8))
  = Return true
  /\ fst (should_resolve (Some [gate_no; gate_yes]) (binary_market false 0.8))
     = Return true.
Proof.
  exact (@should_resolve_more_rules
           [fun _ => true] [fun _ => false] (binary_market false 0.8)
           eq_refl).
Defined.

(** ** Further properties of [resolve_to] *)

(** X4.  [resolve_to] never returns [None], whatever the rules and the
    market: it returns a rule's value other than [None], a boolean or an
    answer, or it raises. *)
Theorem resolve_to_never_none
    (rules : option (list ResolutionValueRule)) (self : Market) :
  fst (resolve_to rules self) <> Return PyNone.
Proof.
  unfold resolve_to, bind.
  destruct (choose (or_unit rules) self) as [[v|e] s]; [|discriminate].
  destruct v; simpl; try discriminate.
  destruct (probability (market s)); [discriminate|].
  destruct (answers (market s)) as [[|a l]|]; simpl; discriminate.
Qed.

(** X7.  Value rules that return [None] may be dropped from the front:
    the call goes on as a call with the remaining rules, made in the state
    the dropped ones left. *)
Theorem resolve_to_drop_declined
    (pre post : list ResolutionValueRule) (self self1 : Market) :
  all_none pre self = Some self1 ->
  resolve_to (Some (pre ++ post)) self = resolve_to (Some post) self1.
Proof.
  intros H. unfold resolve_to. simpl or_unit. unfold bind at 1 3.
  now rewrite choose_skip with (self' := self1).
Qed.

Lemma resolve_to_drop_declined_witness :
  resolve_to (Some [rule_absent; rule_scribble PyNone; rule_42; rule_cancel])
    numeric_market
  = resolve_to (Some [rule_42; rule_cancel])
      {| market := market numeric_market; notes := "seen" |}.
Proof.
  exact (@resolve_to_drop_declined
           [rule_absent; rule_scribble PyNone] [rule_42; rule_cancel]
           numeric_market _ eq_refl).
Defined.

(** Two ways of cutting a list at a first greatest answer cut it at the
    same answer. *)
Lemma first_greatest_cut (b1 : list Answer.t) :
  forall b2 a1 a2 r1 r2,
    b1 ++ a1 :: r1 = b2 ++ a2 :: r2 ->
    Forall (fun x => (Answer.probability x < Answer.probability a1)%Q) b1 ->
    Forall (fun x => (Answer.probability x <= Answer.probability a1)%Q) r1 ->
    Forall (fun x => (Answer.probability x < Answer.probability a2)%Q) b2 ->
    Forall (fun x => (Answer.probability x <= Answer.probability a2)%Q) r2 ->
    a1 = a2.
Proof.
  induction b1 as [|x b1 IH]; intros [|y b2] a1 a2 r1 r2 E B1 R1 B2 R2;
    simpl in E; injection E as E1 E2.
  - exact E1.
  - subst. apply Forall_app in R1 as [_ R1].
    inversion R1; subst. inversion B2; subst. lra.
  - subst. apply Forall_app in R2 as [_ R2].
    inversion R2; subst. inversion B1; subst. lra.
  - inversion B1; subst. inversion B2; subst. now apply (IH b2 a1 a2 r1 r2).
Qed.

Lemma first_greatest_unique items a b :
  first_greatest items a -> first_greatest items b -> a = b.
Proof.
  intros (b1 & r1 & E1 & B1 & R1) (b2 & r2 & E2 & B2 & R2).
  rewrite E1 in E2. eapply first_greatest_cut; [exact E2| | | |]; assumption.
Qed.

(** X6.  When every value rule returns [None], the market has no
    probability and [answers] is not empty, [resolve_to] returns an answer
    of the list, and the answer it returns is the first one of greatest
    probability and no other. *)
Theorem resolve_to_default_first_greatest
    (rules : list ResolutionValueRule) (self self' : Market)
    (first : Answer.t) (rest : list Answer.t) :
  all_none rules self = Some self' ->
  probability (market self') = None ->
  answers (market self') = Some (first :: rest) ->
  (exists a, resolve_to (Some rules) self = (Return (PyAnswer a), self'))
  /\ (forall a,
        resolve_to (Some rules) self = (Return (PyAnswer a), self')
        <-> first_greatest (first :: rest) a).
Proof.
  intros Hnone Hp Ha.
  rewrite (resolve_to_fallback _ _ Hnone), Hp, Ha. simpl. split.
  - now exists (max_loop first rest).
  - intros a. split.
    + intros H. injection H as <-. apply max_loop_first_greatest.
    + intros H.
      now rewrite (first_greatest_unique H
                     (max_loop_first_greatest first rest)).
Qed.

Lemma resolve_to_default_first_greatest_witness :
  resolve_to (Some [rule_absent])
    (free_response_market
       [Answer.mk 0 0.2; Answer.mk 1 0.7; Answer.mk 2 0.7; Answer.mk 3 0.1])
  = (Return (PyAnswer (Answer.mk 1 0.7)),
     free_response_market
       [Answer.mk 0 0.2; Answer.mk 1 0.7; Answer.mk 2 0.7; Answer.mk 3 0.1]).
Proof.
  apply (proj2 (@resolve_to_default_first_greatest
                  [rule_absent]
                  (free_response_market
                     [Answer.mk 0 0.2; Answer.mk 1 0.7; Answer.mk 2 0.7;
                      Answer.mk 3 0.1])
                  _ _ _ eq_refl eq_refl eq_refl)).
  exists [Answer.mk 0 0.2], [Answer.mk 2 0.7; Answer.mk 3 0.1].
  split; [reflexivity|].
  split; repeat constructor; discriminate.
Defined.

(** X8.  When every value rule returns [None] and the market has a
    probability [p], of whatever size, [resolve_to] returns [False] exactly
    when [p] lies between minus one half and one half, both included, and
    [True] exactly when it lies outside. *)
Theorem resolve_to_binary_any_probability
    (rules : list ResolutionValueRule) (self self' : Market) (p : Q) :
  all_none rules self = Some self' ->
  probability (market self') = Some p ->
  (resolve_to (Some rules) self = (Return (PyBool false), self')
   <-> (-(1#2) <= p <= 1#2)%Q)
  /\ (resolve_to (Some rules) self = (Return (PyBool true), self')
      <-> (p < -(1#2) \/ 1#2 < p)%Q).
Proof.
  intros Hnone Hp. rewrite (resolve_to_fallback _ _ Hnone), Hp.
  pose proof (py_round_zero p) as Z. unfold py_bool.
  destruct (Z.eqb_spec (py_round p) 0) as [E|E]; simpl.
  - apply Z in E. split; split; try tauto; try discriminate.
    intros [H|H]; lra.
  - assert (N : ~ (-(1#2) <= p <= 1#2)%Q) by tauto.
    split; split; try tauto; try discriminate.
    intros _.
    destruct (Qlt_le_dec p (-(1#2))) as [L|L]; [now left|].
    destruct (Qlt_le_dec (1#2) p) as [U|U]; [now right|].
    exfalso. apply N. now split.
Qed.

Lemma resolve_to_binary_any_probability_witness :
  resolve_to (Some [rule_absent]) (binary_market false (1#2))
  = (Return (PyBool false), binary_market false (1#2))
  /\ resolve_to (Some [rule_absent]) (binary_market false (-(7#10)))
     = (Return (PyBool true), binary_market false (-(7#10))).
Proof.
  split.
  - apply (proj1 (@resolve_to_binary_any_probability
                    [rule_absent] (binary_market false (1#2)) _ (1#2)
                    eq_refl eq_refl)).
    split; discriminate.
  - apply (proj2 (@resolve_to_binary_any_probability
                    [rule_absent] (binary_market false (-(7#10))) _
                    (-(7#10)) eq_refl eq_refl)).
    left. reflexivity.
Defined.

(** ** [resolve] *)

(** X9.  [resolve] does not reach the client when [resolve_to] fails.  If
    a value rule raises when its turn comes, or if every rule returns
    [None] on a market without probability and without answers, [resolve]
    raises and the client is as it was: nothing has been sent. *)
Theorem resolve_fails_before_client
    (Client Response : Type)
    (resolve_market :
       APIMarket -> pyval -> Client -> outcome Response * Client) :
  (forall pre rule post self self1 self2 e client,
      all_none pre self = Some self1 ->
      rule self1 = (Raise e, self2) ->
      resolve resolve_market (Some (pre ++ rule :: post)) self client
      = (Raise e, (self2, client)))
  /\ (forall rules self self' client,
      all_none rules self = Some self' ->
      probability (market self') = None ->
      answers (market self') = None \/ answers (market self') = Some [] ->
      exists e,
        resolve resolve_market (Some rules) self client
        = (Raise e, (self', client))).
Proof.
  split.
  - intros pre rule post self self1 self2 e client Hpre H. unfold resolve.
    rewrite resolve_to_raised with (self' := self2) (e := e); [reflexivity|].
    rewrite choose_skip with (self' := self1) by assumption.
    simpl. now apply bind_raise.
  - intros rules self self' client Hnone Hp Ha. unfold resolve.
    rewrite (resolve_to_fallback _ _ Hnone), Hp.
    destruct Ha as [-> | ->]; eexists; reflexivity.
Qed.

Lemma resolve_fails_before_client_witness :
  resolve logging_client (Some [rule_absent; rule_broken; rule_cancel])
    (binary_market false 0.8) []
  = (Raise (Exn "RuntimeError"), (binary_market false 0.8, []))
  /\ exists e,
       resolve logging_client (Some [rule_absent]) numeric_market []
       = (Raise e, (numeric_market, [])).
Proof.
  split.
  - exact (proj1 (resolve_fails_before_client logging_client)
             [rule_absent] rule_broken [rule_cancel]
             (binary_market false 0.8) _ _ _ [] eq_refl eq_refl).
  - exact (proj2 (resolve_fails_before_client logging_client)
             [rule_absent] numeric_market numeric_market []
             eq_refl eq_refl (or_introl eq_refl)).
Defined.

(** Pure value rules that return [None] leave the loop where it began. *)
Lemma all_none_pure (fs : list (Market -> outcome pyval)) self :
  Forall (fun f => f self = Return PyNone) fs ->
  all_none (map (@pure_rule pyval) fs) self = Some self.
Proof.
  induction 1 as [|f fs Hf _ IH]; simpl; [reflexivity|].
  unfold pure_rule at 1. now rewrite Hf.
Qed.

(** X10.  With value rules that only read the market: when a rule decides,
    [resolve] calls the client with the market and that rule's value as it
    is, ["CANCEL"] included, and hands back the client's answer or error,
    on a resolved market as on any other. *)
Theorem resolve_sends_decisive_value
    (Client Response : Type)
    (resolve_market :
       APIMarket -> pyval -> Client -> outcome Response * Client)
    (pre : list (Market -> outcome pyval)) (f : Market -> outcome pyval)
    (post : list (Market -> outcome pyval)) (self : Market)
    (v : pyval) (client : Client) :
  Forall (fun g => g self = Return PyNone) pre ->
  f self = Return v ->
  is_none v = false ->
  resolve resolve_market
    (Some (map (@pure_rule pyval) (pre ++ f :: post))) self client
  = (fst (resolve_market (market self) v client),
     (self, snd (resolve_market (market self) v client))).
Proof.
  intros Hpre H N. unfold resolve. rewrite map_app. simpl map.
  rewrite resolve_to_chosen with (self' := self) (v := v).
  - now destruct (resolve_market (market self) v client).
  - rewrite choose_skip with (self' := self) by now apply all_none_pure.
    simpl. unfold bind, pure_rule at 1. now rewrite H, N.
  - exact N.
Qed.

Lemma resolve_sends_decisive_value_witness :
  resolve logging_client (Some [rule_absent; rule_cancel; rule_42])
    (binary_market true 0.8) []
  = (Return 0%nat,
     (binary_market true 0.8,
      [(market (binary_market true 0.8), PyStr "CANCEL")])).
Proof.
  exact (@resolve_sends_decisive_value _ _ logging_client
           [fun _ => Return PyNone] (fun _ => Return (PyStr "CANCEL"))
           [fun _ => Return (PyInt 42)]
           (binary_market true 0.8) _ [] (Forall_cons _ eq_refl (Forall_nil _))
           eq_refl eq_refl).
Defined.
